(** * Video-Editor: the JNI boundary layer [mlt_wrapper.cpp]

    A shallow embedding of [app/src/main/cpp/mlt_wrapper.cpp].  The file
    exports eleven native entry points for the Java class
    [uc.ucworks.videosnap.MltHelper].  Each entry point is embedded as a
    computation in a small state monad over the part of the process a
    native method can reach: the JVM heap (through [JNIEnv]), the pending
    Java exception, the media files on disk and the calls made to the
    multimedia engine.

    The helper [apply_filter_chain] and the include of the engine's header
    are commented out in the source; they are no part of the compiled
    program and have no embedding here. *)

From Stdlib Require Import ZArith Floats.PrimFloat.
From stdpp Require Import gmap strings list.

Local Open Scope Z_scope.

(** ** JNI value types *)

(** A [jobject] is an opaque reference into the JVM heap; [jstring] and
    [jobjectArray] are the same reference type at the C++ level. *)
Definition jobject := nat.
Definition jstring := jobject.
Definition jobjectArray := jobject.

(** [jint] is a 32-bit signed integer, carried as a [Z]; [jdouble] is an
    IEEE 754 binary64 number. *)
Definition jint := Z.
Definition jdouble := float.

(** What a heap cell can hold: a [java.lang.String], an array of
    references, or an instance of some other class. *)
Inductive JavaObject : Type :=
  | JString (chars : string)
  | JObjArray (elems : list jobject)
  | JInstance (class : string).


(** ** The world a native method runs in *)

(** Modelled from the spec: the metadata of a media resource (section 3,
    Media Handle), which is what the disk holds at a path.  The source
    declares no type for it. *)
Record MediaFile : Type := mkMediaFile {
  duration : jdouble;
  width : Z;
  height : Z;
  frameRate : jdouble;
  audioChannels : Z
}.

(** Modelled from the spec: the failure kinds of section 7.  A native
    method reports a failure to its Java caller by leaving an exception
    pending in the [JNIEnv]; the source declares no error type. *)
Inductive ErrorKind : Type :=
  | NotFound | UnsupportedFormat | UnsupportedFilter | InvalidParameter
  | InvalidRange | EmptyInput | EncodeFailure | DecodeFailure
  | DiskWriteFailure | Cancelled | TrackingLost.

(** Modelled from the spec: the capabilities consumed from the external
    multimedia engine (section 6).  The engine's header is not included by
    the source, so the log of engine calls can only ever stay as it is. *)
Inductive EngineCall : Type :=
  | Decode (path : string)
  | ApplyFilter (stage : string)
  | Compose
  | Encode (path : string).

Record World : Type := mkWorld {
  heap : list JavaObject;           (* JVM heap, reached through JNIEnv *)
  thrown : option ErrorKind;        (* pending Java exception, if any *)
  files : gmap string MediaFile;    (* media files on disk, by path *)
  engine : list EngineCall          (* calls made to the engine so far *)
}.

Definition set_heap (h : list JavaObject) (w : World) : World :=
  mkWorld h (thrown w) (files w) (engine w).

Definition set_files (fs : gmap string MediaFile) (w : World) : World :=
  mkWorld (heap w) (thrown w) fs (engine w).

(** ** The monad of native code *)

Module JNI.

(** A native computation takes the world and yields a value and the
    world it leaves behind; the [JNIEnv *env] parameter of every entry
    point is this threaded state. *)
Definition M (A : Type) : Type := World -> A * World.

Definition ret {A} (a : A) : M A := fun w => (a, w).

Definition bind {A B} (m : M A) (k : A -> M B) : M B :=
  fun w => let (a, w') := m w in k a w'.

Definition run {A} (m : M A) (w : World) : A * World := m w.
Definition eval {A} (m : M A) (w : World) : A := fst (m w).
Definition exec {A} (m : M A) (w : World) : World := snd (m w).

End JNI.

Declare Scope jni_scope.
Delimit Scope jni_scope with jni.
Notation "'call' x := m 'in' k" := (JNI.bind m (fun x => k))
  (at level 10, x name, m at level 100, k at level 200) : jni_scope.
Notation "m1 ;; m2" := (JNI.bind m1 (fun _ => m2))
  (at level 100, m2 at level 200, right associativity) : jni_scope.

(** [env->NewStringUTF(bytes)]: allocates a fresh [java.lang.String] with
    the given characters and returns the reference to it. *)
Definition NewStringUTF (bytes : string) : JNI.M jstring :=
  fun w => (length (heap w), set_heap (heap w ++ [JString bytes]) w).

(** ** The native entry points, in source order *)

Definition Java_uc_ucworks_videosnap_MltHelper_getVideoInfoNative
    (this : jobject) (filePath : jstring) : JNI.M jstring :=
  NewStringUTF "Duration: 0".

Definition Java_uc_ucworks_videosnap_MltHelper_trimVideoNative
    (this : jobject) (inPath outPath : jstring) (start end_ : jdouble)
    : JNI.M unit :=
  JNI.ret tt.

Definition Java_uc_ucworks_videosnap_MltHelper_splitVideoNative
    (this : jobject) (inPath outPath1 outPath2 : jstring)
    (splitPoint : jdouble) : JNI.M unit :=
  JNI.ret tt.

Definition Java_uc_ucworks_videosnap_MltHelper_applyEffectNative
    (this : jobject) (inPath outPath effect : jstring) : JNI.M unit :=
  JNI.ret tt.

Definition Java_uc_ucworks_videosnap_MltHelper_exportVideoNative
    (this : jobject) (inPath outPath : jstring) (preset : jobject)
    : JNI.M unit :=
  JNI.ret tt.

Definition Java_uc_ucworks_videosnap_MltHelper_mixAudioNative
    (this : jobject) (inPaths : jobjectArray) (outPath : jstring)
    : JNI.M unit :=
  JNI.ret tt.

Definition Java_uc_ucworks_videosnap_MltHelper_applyKeyframeEffectNative
    (this : jobject) (inPath outPath property : jstring)
    (keyframes : jobjectArray) : JNI.M unit :=
  JNI.ret tt.

Definition Java_uc_ucworks_videosnap_MltHelper_applyTextOverlayNative
    (this : jobject) (inPath outPath text : jstring)
    (x y fontSize color : jint) : JNI.M unit :=
  JNI.ret tt.

Definition Java_uc_ucworks_videosnap_MltHelper_applyPiPNative
    (this : jobject) (backgroundPath foregroundPath outPath : jstring)
    (x y width height : jint) : JNI.M unit :=
  JNI.ret tt.

Definition Java_uc_ucworks_videosnap_MltHelper_applySpeedRampNative
    (this : jobject) (inPath outPath speedMap : jstring) : JNI.M unit :=
  JNI.ret tt.

Definition Java_uc_ucworks_videosnap_MltHelper_trackMotionNative
    (this : jobject) (inPath outPath : jstring) (x y width height : jint)
    : JNI.M jstring :=
  NewStringUTF "".

(** ** What the Java caller gets back *)

(** The Java class declares one [native] method per entry point; a call
    carries the arguments that follow [env] and [this]. *)
Inductive NativeCall : Type :=
  | GetVideoInfo (filePath : jstring)
  | TrimVideo (inPath outPath : jstring) (start end_ : jdouble)
  | SplitVideo (inPath outPath1 outPath2 : jstring) (splitPoint : jdouble)
  | ApplyEffect (inPath outPath effect : jstring)
  | ExportVideo (inPath outPath : jstring) (preset : jobject)
  | MixAudio (inPaths : jobjectArray) (outPath : jstring)
  | ApplyKeyframeEffect (inPath outPath property : jstring)
      (keyframes : jobjectArray)
  | ApplyTextOverlay (inPath outPath text : jstring)
      (x y fontSize color : jint)
  | ApplyPiP (backgroundPath foregroundPath outPath : jstring)
      (x y width height : jint)
  | ApplySpeedRamp (inPath outPath speedMap : jstring)
  | TrackMotion (inPath outPath : jstring) (x y width height : jint).

(** The nine entry points declared [void]. *)
Definition is_void (c : NativeCall) : bool :=
  match c with
  | GetVideoInfo _ | TrackMotion _ _ _ _ _ _ => false
  | _ => true
  end.

Local Open Scope jni_scope.

(** JNI linkage: the call is resolved, by name, to the entry point.  A
    [jstring] entry point hands its reference back; a [void] one hands
    back nothing. *)
Definition invoke (this : jobject) (c : NativeCall)
    : JNI.M (option jstring) :=
  match c with
  | GetVideoInfo filePath =>
      call s :=
        Java_uc_ucworks_videosnap_MltHelper_getVideoInfoNative this filePath
      in JNI.ret (Some s)
  | TrimVideo inPath outPath start end_ =>
      Java_uc_ucworks_videosnap_MltHelper_trimVideoNative
        this inPath outPath start end_ ;;
      JNI.ret None
  | SplitVideo inPath outPath1 outPath2 splitPoint =>
      Java_uc_ucworks_videosnap_MltHelper_splitVideoNative
        this inPath outPath1 outPath2 splitPoint ;;
      JNI.ret None
  | ApplyEffect inPath outPath effect =>
      Java_uc_ucworks_videosnap_MltHelper_applyEffectNative
        this inPath outPath effect ;;
      JNI.ret None
  | ExportVideo inPath outPath preset =>
      Java_uc_ucworks_videosnap_MltHelper_exportVideoNative
        this inPath outPath preset ;;
      JNI.ret None
  | MixAudio inPaths outPath =>
      Java_uc_ucworks_videosnap_MltHelper_mixAudioNative
        this inPaths outPath ;;
      JNI.ret None
  | ApplyKeyframeEffect inPath outPath property keyframes =>
      Java_uc_ucworks_videosnap_MltHelper_applyKeyframeEffectNative
        this inPath outPath property keyframes ;;
      JNI.ret None
  | ApplyTextOverlay inPath outPath text x y fontSize color =>
      Java_uc_ucworks_videosnap_MltHelper_applyTextOverlayNative
        this inPath outPath text x y fontSize color ;;
      JNI.ret None
  | ApplyPiP backgroundPath foregroundPath outPath x y width height =>
      Java_uc_ucworks_videosnap_MltHelper_applyPiPNative
        this backgroundPath foregroundPath outPath x y width height ;;
      JNI.ret None
  | ApplySpeedRamp inPath outPath speedMap =>
      Java_uc_ucworks_videosnap_MltHelper_applySpeedRampNative
        this inPath outPath speedMap ;;
      JNI.ret None
  | TrackMotion inPath outPath x y width height =>
      call s :=
        Java_uc_ucworks_videosnap_MltHelper_trackMotionNative
          this inPath outPath x y width height
      in JNI.ret (Some s)
  end.

(** ** Observations *)

(** The characters of the Java string a reference points to. *)
Definition string_at (w : World) (j : jstring) : option string :=
  match heap w !! j with
  | Some (JString chars) => Some chars
  | _ => None
  end.

(** The media file on disk at the path a Java string names. *)
Definition file_at (w : World) (path : jstring) : option MediaFile :=
  match string_at w path with
  | Some p => files w !! p
  | None => None
  end.

(** The characters of the string a native computation returns, read in
    the world it leaves behind. *)
Definition returned_chars (m : JNI.M jstring) (w : World) : option string :=
  let (j, w') := m w in string_at w' j.

(** The same for a resolved call; [None] when nothing is handed back. *)
Definition result_chars (m : JNI.M (option jstring)) (w : World)
    : option string :=
  let (r, w') := m w in
  match r with
  | Some j => string_at w' j
  | None => None
  end.

(** A computation that is the identity on the world. *)
Definition leaves_world_unchanged {A} (m : JNI.M A) : Prop :=
  forall w, JNI.exec m w = w.

(** ** The design-level contracts the entry points are compared with *)

(** Modelled from the spec: the stage kinds of section 3 (Filter Stage),
    the set an effect name is looked up in.  The source keeps no such
    table. *)
Definition supported_effects : list string :=
  ["grayscale"; "sepia"; "invert"; "oldfilm"; "text-overlay"; "pip";
   "speed-ramp"; "custom"].

(** [0 <= start < end <= d]. *)
Definition valid_range (d start end_ : jdouble) : bool :=
  PrimFloat.leb 0 start && PrimFloat.ltb start end_ && PrimFloat.leb end_ d.

(** [start >= end], or [start] or [end] outside [[0, d]]. *)
Definition invalid_range (d start end_ : jdouble) : bool :=
  PrimFloat.leb end_ start
  || PrimFloat.ltb start 0 || PrimFloat.ltb d start
  || PrimFloat.ltb end_ 0 || PrimFloat.ltb d end_.

(** [0 < p < d]. *)
Definition strictly_inside (d p : jdouble) : bool :=
  PrimFloat.ltb 0 p && PrimFloat.ltb p d.

(** [|actual - expected| <= 1 / fps]. *)
Definition within_one_frame (fps actual expected : jdouble) : bool :=
  PrimFloat.leb (PrimFloat.abs (PrimFloat.sub actual expected))
                (PrimFloat.div 1 fps).

(** Two files with the same duration and dimensions. *)
Definition same_metadata (a b : MediaFile) : bool :=
  PrimFloat.eqb (duration a) (duration b)
  && Z.eqb (width a) (width b) && Z.eqb (height a) (height b).

(** Section 7: the call hands back a result or leaves a failure kind
    pending. *)
Definition spec_reports_outcome (this : jobject) (c : NativeCall)
    (w : World) : Prop :=
  is_Some (JNI.eval (invoke this c) w)
  \/ exists k, thrown (JNI.exec (invoke this c) w) = Some k.

(** Section 6, getVideoInfo: files that differ in duration or dimensions
    are told apart by the returned string. *)
Definition spec_info_reflects_file
    (w1 : World) (this1 : jobject) (path1 : jstring)
    (w2 : World) (this2 : jobject) (path2 : jstring) : Prop :=
  forall m1 m2,
    file_at w1 path1 = Some m1 -> file_at w2 path2 = Some m2 ->
    same_metadata m1 m2 = false ->
    returned_chars
      (Java_uc_ucworks_videosnap_MltHelper_getVideoInfoNative this1 path1) w1
    <> returned_chars
      (Java_uc_ucworks_videosnap_MltHelper_getVideoInfoNative this2 path2) w2.

(** Section 4.3, trim: a range that is not valid is refused with
    InvalidRange. *)
Definition spec_trim_rejects (w : World) (this : jobject)
    (inPath outPath : jstring) (start end_ : jdouble) : Prop :=
  forall m,
    file_at w inPath = Some m ->
    invalid_range (duration m) start end_ = true ->
    thrown (JNI.exec (Java_uc_ucworks_videosnap_MltHelper_trimVideoNative
                        this inPath outPath start end_) w)
    = Some InvalidRange.

(** Section 8, trim: a valid range yields an output of duration
    [end - start], give or take one frame. *)
Definition spec_trim_duration (w : World) (this : jobject)
    (inPath outPath : jstring) (start end_ : jdouble) : Prop :=
  forall m,
    file_at w inPath = Some m ->
    valid_range (duration m) start end_ = true ->
    let w' := JNI.exec (Java_uc_ucworks_videosnap_MltHelper_trimVideoNative
                          this inPath outPath start end_) w in
    thrown w' = None
    /\ exists out,
         file_at w' outPath = Some out
         /\ within_one_frame (frameRate m) (duration out)
              (PrimFloat.sub end_ start) = true.

(** Sections 4.3 and 8, split: two segments covering [[0,p)] and
    [[p,duration)], whose durations add up to the original one. *)
Definition spec_split_covers (w : World) (this : jobject)
    (inPath outPath1 outPath2 : jstring) (splitPoint : jdouble) : Prop :=
  forall m,
    file_at w inPath = Some m ->
    strictly_inside (duration m) splitPoint = true ->
    let w' := JNI.exec (Java_uc_ucworks_videosnap_MltHelper_splitVideoNative
                          this inPath outPath1 outPath2 splitPoint) w in
    exists a b,
      file_at w' outPath1 = Some a /\ file_at w' outPath2 = Some b
      /\ duration a = splitPoint
      /\ duration b = PrimFloat.sub (duration m) splitPoint
      /\ PrimFloat.add (duration a) (duration b) = duration m.

(** One application of an effect, and two in a row through an
    intermediate file. *)
Definition effect_once (this : jobject) (inPath outPath effect : jstring)
    : JNI.M unit :=
  Java_uc_ucworks_videosnap_MltHelper_applyEffectNative
    this inPath outPath effect.

Definition effect_twice (this : jobject)
    (inPath midPath outPath effect : jstring) : JNI.M unit :=
  Java_uc_ucworks_videosnap_MltHelper_applyEffectNative
    this inPath midPath effect ;;
  Java_uc_ucworks_videosnap_MltHelper_applyEffectNative
    this midPath outPath effect.

(** What the second application changes: the output of two applications
    against the output of one. *)
Definition twice_equals_once (w : World) (this : jobject)
    (inPath midPath outPath effect : jstring) : Prop :=
  file_at (JNI.exec (effect_twice this inPath midPath outPath effect) w)
          outPath
  = file_at (JNI.exec (effect_once this inPath outPath effect) w) outPath.

(** Section 8: grayscale is idempotent, sepia is not. *)
Definition spec_effect_idempotence : Prop :=
  (forall w this inPath midPath outPath effect,
      string_at w effect = Some "grayscale" ->
      twice_equals_once w this inPath midPath outPath effect)
  /\ (exists w this inPath midPath outPath effect,
         string_at w effect = Some "sepia"
         /\ ~ twice_equals_once w this inPath midPath outPath effect).

(** Sections 4.2 and 8: an effect name outside the supported set is
    refused with UnsupportedFilter, and nothing is written. *)
Definition spec_unknown_effect_rejected (w : World) (this : jobject)
    (inPath outPath effect : jstring) : Prop :=
  forall name,
    string_at w effect = Some name ->
    name ∉ supported_effects ->
    let w' := JNI.exec (Java_uc_ucworks_videosnap_MltHelper_applyEffectNative
                          this inPath outPath effect) w in
    thrown w' = Some UnsupportedFilter
    /\ file_at w' outPath = file_at w outPath.

(** ** Several calls in a row *)

(** The literal an entry point passes to [NewStringUTF], if it calls it:
    ["Duration: 0"] in getVideoInfoNative, [""] in trackMotionNative,
    none in the [void] entry points. *)
Definition placeholder (c : NativeCall) : option string :=
  match c with
  | GetVideoInfo _ => Some "Duration: 0"
  | TrackMotion _ _ _ _ _ _ => Some ""
  | _ => None
  end.

(** A caller that makes the given calls one after the other on the same
    receiver and collects what each hands back. *)
Fixpoint session (this : jobject) (cs : list NativeCall)
    : JNI.M (list (option jstring)) :=
  match cs with
  | [] => JNI.ret []
  | c :: cs' =>
      call r := invoke this c in
      call rs := session this cs' in
      JNI.ret (r :: rs)
  end.


(** The references among what a session handed back. *)
Definition handed_back (rs : list (option jstring)) : list jstring :=
  omap id rs.

(** ** A concrete world *)

Module Studio.

Definition clip_a : MediaFile := mkMediaFile 10%float 1920 1080 30%float 2.
Definition clip_b : MediaFile := mkMediaFile 30%float 640 480 25%float 1.

(** References held by the caller. *)
Definition this : jobject := 0%nat.
Definition in_mp4 : jstring := 1%nat.
Definition b_mp4 : jstring := 2%nat.
Definition out_mp4 : jstring := 3%nat.
Definition out2_mp4 : jstring := 4%nat.
Definition mid_mp4 : jstring := 5%nat.
Definition grayscale : jstring := 6%nat.
Definition sepia : jstring := 7%nat.
Definition nosuchfx : jstring := 8%nat.

Definition world : World :=
  mkWorld
    [ JInstance "uc/ucworks/videosnap/MltHelper";
      JString "in.mp4"; JString "b.mp4"; JString "out.mp4";
      JString "out2.mp4"; JString "mid.mp4";
      JString "grayscale"; JString "sepia"; JString "nosuchfx" ]
    None
    (<["in.mp4" := clip_a]> (<["b.mp4" := clip_b]> ∅))
    [].

End Studio.

Example studio_in : file_at Studio.world Studio.in_mp4 = Some Studio.clip_a.
Proof. reflexivity. Qed.

Example studio_out : file_at Studio.world Studio.out_mp4 = None.
Proof. reflexivity. Qed.

Example studio_fx : string_at Studio.world Studio.sepia = Some "sepia".
Proof. reflexivity. Qed.

Example studio_ranges :
  invalid_range 10%float 5%float 1%float = true
  /\ valid_range 10%float 2%float 5%float = true
  /\ strictly_inside 10%float 4%float = true.
Proof. repeat split. Qed.

(** * Properties *)

(** ** The one JNI service the source uses *)

Section NewStringUTF_facts.

Variable bytes : string.
Variable w : World.

Lemma NewStringUTF_fresh :
  JNI.eval (NewStringUTF bytes) w = length (heap w).
Proof. reflexivity. Qed.

Lemma NewStringUTF_heap :
  heap (JNI.exec (NewStringUTF bytes) w) = heap w ++ [JString bytes].
Proof. reflexivity. Qed.

Lemma NewStringUTF_frame :
  let w' := JNI.exec (NewStringUTF bytes) w in
  thrown w' = thrown w /\ files w' = files w /\ engine w' = engine w.
Proof. cbn. auto. Qed.

Lemma NewStringUTF_chars :
  returned_chars (NewStringUTF bytes) w = Some bytes.
Proof.
  unfold returned_chars, NewStringUTF, string_at; cbn.
  now rewrite list_lookup_middle.
Qed.

(** References the caller already holds keep their meaning. *)
Lemma NewStringUTF_keeps (j : jstring) (s : string) :
  string_at w j = Some s ->
  string_at (JNI.exec (NewStringUTF bytes) w) j = Some s.
Proof.
  unfold string_at; rewrite NewStringUTF_heap.
  destruct (heap w !! j) as [o|] eqn:E; [|discriminate].
  intros H. now rewrite (lookup_app_l_Some _ _ _ _ E).
Qed.

End NewStringUTF_facts.

(** ** The empty bodies *)

Create HintDb stubs.

Lemma ret_unchanged {A} (a : A) : leaves_world_unchanged (JNI.ret a).
Proof. intros w. reflexivity. Qed.

Lemma unchanged_then {A B} (m : JNI.M A) (k : JNI.M B) :
  leaves_world_unchanged m -> leaves_world_unchanged k ->
  leaves_world_unchanged (m ;; k).
Proof.
  intros Hm Hk w. specialize (Hm w).
  unfold JNI.exec, JNI.bind in *.
  destruct (m w) as [a w1]. cbn in Hm. subst w1.
  apply Hk.
Qed.

Lemma unchanged_file_at {A} (m : JNI.M A) (w : World) (path : jstring) :
  leaves_world_unchanged m ->
  file_at (JNI.exec m w) path = file_at w path.
Proof. intros H. now rewrite H. Qed.

Lemma unchanged_thrown {A} (m : JNI.M A) (w : World) :
  leaves_world_unchanged m -> thrown (JNI.exec m w) = thrown w.
Proof. intros H. now rewrite H. Qed.

#[export] Hint Resolve ret_unchanged unchanged_then : stubs.

Lemma trimVideoNative_unchanged this inPath outPath start end_ :
  leaves_world_unchanged
    (Java_uc_ucworks_videosnap_MltHelper_trimVideoNative
       this inPath outPath start end_).
Proof. apply ret_unchanged. Qed.

Lemma splitVideoNative_unchanged this inPath outPath1 outPath2 splitPoint :
  leaves_world_unchanged
    (Java_uc_ucworks_videosnap_MltHelper_splitVideoNative
       this inPath outPath1 outPath2 splitPoint).
Proof. apply ret_unchanged. Qed.

Lemma applyEffectNative_unchanged this inPath outPath effect :
  leaves_world_unchanged
    (Java_uc_ucworks_videosnap_MltHelper_applyEffectNative
       this inPath outPath effect).
Proof. apply ret_unchanged. Qed.

#[export] Hint Resolve trimVideoNative_unchanged splitVideoNative_unchanged
  applyEffectNative_unchanged : stubs.

Lemma effect_once_unchanged this inPath outPath effect :
  leaves_world_unchanged (effect_once this inPath outPath effect).
Proof. unfold effect_once; auto with stubs. Qed.

Lemma effect_twice_unchanged this inPath midPath outPath effect :
  leaves_world_unchanged (effect_twice this inPath midPath outPath effect).
Proof. unfold effect_twice; auto with stubs. Qed.

(** A resolved call never touches the pending exception, the disk or the
    engine; the only cell it may add to the heap is the returned string. *)
Lemma invoke_frame (this : jobject) (c : NativeCall) (w : World) :
  let w' := JNI.exec (invoke this c) w in
  thrown w' = thrown w /\ files w' = files w /\ engine w' = engine w.
Proof. destruct c; cbn; auto. Qed.

Lemma invoke_void (this : jobject) (c : NativeCall) (w : World) :
  is_void c = true -> JNI.run (invoke this c) w = (None, w).
Proof. destruct c; cbn; intros H; try discriminate H; reflexivity. Qed.

Lemma invoke_string (this : jobject) (c : NativeCall) (w : World) :
  is_void c = false ->
  JNI.eval (invoke this c) w = Some (length (heap w)).
Proof. destruct c; cbn; intros H; try discriminate H; reflexivity. Qed.

(** ** The entry points against the spec *)

Ltac string_result :=
  unfold result_chars, returned_chars, string_at; cbn;
  now rewrite list_lookup_middle.

(** C1. Every exposed native entry point is an empty stub.  Whatever the
    call and the world, the engine is never called (no decoding, filter
    application, timeline composition or encoding) and the disk stays as
    it is; a [void] entry point does nothing at all, and the two that
    return a string return the placeholders ["Duration: 0"] and [""]. *)
Theorem native_entry_points_are_stubs
    (this : jobject) (c : NativeCall) (w : World) :
  engine (JNI.exec (invoke this c) w) = engine w
  /\ files (JNI.exec (invoke this c) w) = files w
  /\ match c with
     | GetVideoInfo _ =>
         result_chars (invoke this c) w = Some "Duration: 0"
     | TrackMotion _ _ _ _ _ _ =>
         result_chars (invoke this c) w = Some ""
     | _ => JNI.run (invoke this c) w = (None, w)
     end.
Proof.
  destruct (invoke_frame this c w) as (_ & Hf & He).
  split; [exact He | split; [exact Hf |]].
  destruct c; try reflexivity; string_result.
Qed.

(** C2, as stated, fails: trimming seconds 2 to 5 of [in.mp4] hands back
    no result and leaves no failure kind pending. *)
Lemma trimVideoNative_reports_nothing :
  ~ spec_reports_outcome Studio.this
      (TrimVideo Studio.in_mp4 Studio.out_mp4 2%float 5%float)
      Studio.world.
Proof. intros [[r H] | [k H]]; discriminate H. Qed.

(** C2, amended.  No call ever raises a failure kind: the pending
    exception is what it was on entry.  getVideoInfo and trackMotion hand
    back a string; each of the nine [void] operations hands back nothing
    and leaves the world as it found it. *)
Theorem invoke_outcome (this : jobject) (c : NativeCall) (w : World) :
  thrown (JNI.exec (invoke this c) w) = thrown w
  /\ if is_void c
     then JNI.run (invoke this c) w = (None, w)
     else is_Some (JNI.eval (invoke this c) w)
          /\ is_Some (result_chars (invoke this c) w).
Proof.
  split; [apply invoke_frame |].
  destruct (is_void c) eqn:E.
  - now apply invoke_void.
  - split; [rewrite invoke_string by exact E; eauto |].
    destruct c; try discriminate E; eexists; string_result.
Qed.

(** C3, as stated, fails: [in.mp4] (10 s, 1920x1080) and [b.mp4] (30 s,
    640x480) get the same answer. *)
Lemma getVideoInfoNative_same_for_different_files :
  ~ spec_info_reflects_file
      Studio.world Studio.this Studio.in_mp4
      Studio.world Studio.this Studio.b_mp4.
Proof.
  intros H.
  apply (H Studio.clip_a Studio.clip_b); reflexivity.
Qed.

(** C3, amended.  For every file path, getVideoInfo returns the
    placeholder ["Duration: 0"] whatever the disk holds, at that path or
    elsewhere; the file is not probed: the engine is not called and the
    disk is left as it is. *)
Theorem getVideoInfoNative_ignores_disk
    (w : World) (this : jobject) (filePath : jstring)
    (disk : gmap string MediaFile) :
  let m :=
    Java_uc_ucworks_videosnap_MltHelper_getVideoInfoNative this filePath in
  returned_chars m (set_files disk w) = Some "Duration: 0"
  /\ files (JNI.exec m (set_files disk w)) = disk
  /\ engine (JNI.exec m (set_files disk w)) = engine w.
Proof.
  cbn zeta. split; [apply NewStringUTF_chars | split; reflexivity].
Qed.

(** C4, as stated, fails: trimming [in.mp4] (10 s) from second 5 to
    second 1 raises nothing. *)
Lemma trimVideoNative_reversed_range_not_rejected :
  ~ spec_trim_rejects Studio.world Studio.this
      Studio.in_mp4 Studio.out_mp4 5%float 1%float.
Proof.
  intros H. specialize (H Studio.clip_a eq_refl eq_refl). discriminate H.
Qed.

(** C4, amended.  For every input where start >= end, or start or end
    lies outside [[0, duration]], trim raises no failure (the pending
    exception is what it was on entry, so no InvalidRange is reported) and
    the file at the output path is what it was. *)
Theorem trimVideoNative_accepts_invalid_range
    (w : World) (this : jobject) (inPath outPath : jstring)
    (start end_ : jdouble) (m : MediaFile) :
  file_at w inPath = Some m ->
  invalid_range (duration m) start end_ = true ->
  let w' := JNI.exec (Java_uc_ucworks_videosnap_MltHelper_trimVideoNative
                        this inPath outPath start end_) w in
  thrown w' = thrown w /\ file_at w' outPath = file_at w outPath.
Proof.
  intros _ _ w'. subst w'.
  split; [apply unchanged_thrown | apply unchanged_file_at];
    auto with stubs.
Qed.

Lemma trimVideoNative_accepts_invalid_range_witness :
  file_at Studio.world Studio.in_mp4 = Some Studio.clip_a
  /\ invalid_range (duration Studio.clip_a) 5%float 1%float = true
  /\ thrown (JNI.exec (Java_uc_ucworks_videosnap_MltHelper_trimVideoNative
                         Studio.this Studio.in_mp4 Studio.out_mp4
                         5%float 1%float) Studio.world) = None
  /\ file_at (JNI.exec (Java_uc_ucworks_videosnap_MltHelper_trimVideoNative
                          Studio.this Studio.in_mp4 Studio.out_mp4
                          5%float 1%float) Studio.world) Studio.out_mp4
     = None.
Proof.
  split; [reflexivity | split; [reflexivity |]].
  apply (trimVideoNative_accepts_invalid_range Studio.world Studio.this
           Studio.in_mp4 Studio.out_mp4 5%float 1%float Studio.clip_a);
    reflexivity.
Defined.

(** C5, as stated, fails: trimming seconds 2 to 5 of [in.mp4] (10 s)
    leaves nothing at [out.mp4]. *)
Lemma trimVideoNative_valid_range_no_output :
  ~ spec_trim_duration Studio.world Studio.this
      Studio.in_mp4 Studio.out_mp4 2%float 5%float.
Proof.
  intros H.
  destruct (H Studio.clip_a eq_refl eq_refl) as (_ & out & Hout & _).
  discriminate Hout.
Qed.

(** C5, amended.  For every media file and every valid pair (start, end)
    with 0 <= start < end <= duration, trim completes without a failure
    and produces no output: the disk is what it was, so the output path
    holds what it held before the call (nothing, if nothing was there). *)
Theorem trimVideoNative_produces_no_output
    (w : World) (this : jobject) (inPath outPath : jstring)
    (start end_ : jdouble) (m : MediaFile) :
  file_at w inPath = Some m ->
  valid_range (duration m) start end_ = true ->
  let w' := JNI.exec (Java_uc_ucworks_videosnap_MltHelper_trimVideoNative
                        this inPath outPath start end_) w in
  thrown w' = thrown w
  /\ files w' = files w
  /\ file_at w' outPath = file_at w outPath.
Proof.
  intros _ _ w'. subst w'.
  rewrite trimVideoNative_unchanged. auto.
Qed.

Lemma trimVideoNative_produces_no_output_witness :
  file_at Studio.world Studio.in_mp4 = Some Studio.clip_a
  /\ valid_range (duration Studio.clip_a) 2%float 5%float = true
  /\ file_at (JNI.exec (Java_uc_ucworks_videosnap_MltHelper_trimVideoNative
                          Studio.this Studio.in_mp4 Studio.out_mp4
                          2%float 5%float) Studio.world) Studio.out_mp4
     = None.
Proof.
  split; [reflexivity | split; [reflexivity |]].
  apply (trimVideoNative_produces_no_output Studio.world Studio.this
           Studio.in_mp4 Studio.out_mp4 2%float 5%float Studio.clip_a);
    reflexivity.
Defined.

(** C6, as stated, fails: splitting [in.mp4] (10 s) at second 4 leaves
    nothing at [out.mp4] or [out2.mp4]. *)
Lemma splitVideoNative_no_segments :
  ~ spec_split_covers Studio.world Studio.this
      Studio.in_mp4 Studio.out_mp4 Studio.out2_mp4 4%float.
Proof.
  intros H.
  destruct (H Studio.clip_a eq_refl eq_refl) as (a & b & Ha & _).
  discriminate Ha.
Qed.

(** C6, amended.  For every media file and every split point strictly
    inside its duration, split completes without a failure and produces no
    segment: the disk is what it was, so both output paths hold what they
    held before the call. *)
Theorem splitVideoNative_produces_no_segments
    (w : World) (this : jobject) (inPath outPath1 outPath2 : jstring)
    (splitPoint : jdouble) (m : MediaFile) :
  file_at w inPath = Some m ->
  strictly_inside (duration m) splitPoint = true ->
  let w' := JNI.exec (Java_uc_ucworks_videosnap_MltHelper_splitVideoNative
                        this inPath outPath1 outPath2 splitPoint) w in
  thrown w' = thrown w
  /\ files w' = files w
  /\ file_at w' outPath1 = file_at w outPath1
  /\ file_at w' outPath2 = file_at w outPath2.
Proof.
  intros _ _ w'. subst w'.
  rewrite splitVideoNative_unchanged. auto.
Qed.

Lemma splitVideoNative_produces_no_segments_witness :
  file_at Studio.world Studio.in_mp4 = Some Studio.clip_a
  /\ strictly_inside (duration Studio.clip_a) 4%float = true
  /\ let w' :=
       JNI.exec (Java_uc_ucworks_videosnap_MltHelper_splitVideoNative
                   Studio.this Studio.in_mp4 Studio.out_mp4 Studio.out2_mp4
                   4%float) Studio.world in
     file_at w' Studio.out_mp4 = None /\ file_at w' Studio.out2_mp4 = None.
Proof.
  split; [reflexivity | split; [reflexivity |]].
  pose proof (splitVideoNative_produces_no_segments Studio.world Studio.this
                Studio.in_mp4 Studio.out_mp4 Studio.out2_mp4 4%float
                Studio.clip_a eq_refl eq_refl) as (_ & _ & H1 & H2).
  split; [exact H1 | exact H2].
Defined.

(** C7, as stated, fails: no world and no arguments make a second sepia
    application change the output. *)
Lemma sepia_twice_never_differs : ~ spec_effect_idempotence.
Proof.
  intros [_ (w & this & inPath & midPath & outPath & effect & _ & Hne)].
  apply Hne. unfold twice_equals_once.
  now rewrite effect_twice_unchanged, effect_once_unchanged.
Qed.

(** C7, amended.  Applying the grayscale effect twice yields the same
    output as applying it once, and so does applying the sepia effect
    twice: through this entry point no application changes anything. *)
Theorem grayscale_and_sepia_twice_equal_once :
  (forall w this inPath midPath outPath effect,
      string_at w effect = Some "grayscale" ->
      twice_equals_once w this inPath midPath outPath effect)
  /\ (forall w this inPath midPath outPath effect,
         string_at w effect = Some "sepia" ->
         twice_equals_once w this inPath midPath outPath effect).
Proof.
  split; intros w this inPath midPath outPath effect _;
    unfold twice_equals_once;
    now rewrite effect_twice_unchanged, effect_once_unchanged.
Qed.

Lemma grayscale_and_sepia_twice_equal_once_witness :
  (string_at Studio.world Studio.grayscale = Some "grayscale"
   /\ twice_equals_once Studio.world Studio.this Studio.in_mp4
        Studio.mid_mp4 Studio.out_mp4 Studio.grayscale)
  /\ (string_at Studio.world Studio.sepia = Some "sepia"
      /\ twice_equals_once Studio.world Studio.this Studio.in_mp4
           Studio.mid_mp4 Studio.out_mp4 Studio.sepia).
Proof.
  split; (split; [reflexivity |]).
  - apply (proj1 grayscale_and_sepia_twice_equal_once). reflexivity.
  - apply (proj2 grayscale_and_sepia_twice_equal_once). reflexivity.
Defined.

(** C8, as stated, fails: the effect name ["nosuchfx"] raises nothing. *)
Lemma applyEffectNative_unknown_effect_not_rejected :
  ~ spec_unknown_effect_rejected Studio.world Studio.this
      Studio.in_mp4 Studio.out_mp4 Studio.nosuchfx.
Proof.
  intros H.
  assert (Hout : "nosuchfx" ∉ supported_effects)
    by (apply (bool_decide_unpack _); vm_compute; exact I).
  destruct (H "nosuchfx" eq_refl Hout) as [Hthrown _].
  discriminate Hthrown.
Qed.

(** C8, amended.  For every input path and output path, applying an
    effect whose name is outside the supported set raises no failure (the
    pending exception is what it was on entry, so no UnsupportedFilter is
    reported), and no output file is created at the output path. *)
Theorem applyEffectNative_unknown_effect_ignored
    (w : World) (this : jobject) (inPath outPath effect : jstring)
    (name : string) :
  string_at w effect = Some name ->
  name ∉ supported_effects ->
  let w' := JNI.exec (Java_uc_ucworks_videosnap_MltHelper_applyEffectNative
                        this inPath outPath effect) w in
  thrown w' = thrown w /\ file_at w' outPath = file_at w outPath.
Proof.
  intros _ _ w'. subst w'.
  now rewrite applyEffectNative_unchanged.
Qed.

Lemma applyEffectNative_unknown_effect_ignored_witness :
  string_at Studio.world Studio.nosuchfx = Some "nosuchfx"
  /\ ("nosuchfx" ∉ supported_effects)
  /\ let w' :=
       JNI.exec (Java_uc_ucworks_videosnap_MltHelper_applyEffectNative
                   Studio.this Studio.in_mp4 Studio.out_mp4 Studio.nosuchfx)
                Studio.world in
     thrown w' = None /\ file_at w' Studio.out_mp4 = None.
Proof.
  assert (Hout : "nosuchfx" ∉ supported_effects)
    by (apply (bool_decide_unpack _); vm_compute; exact I).
  split; [reflexivity | split; [exact Hout |]].
  exact (applyEffectNative_unknown_effect_ignored Studio.world Studio.this
           Studio.in_mp4 Studio.out_mp4 Studio.nosuchfx "nosuchfx"
           eq_refl Hout).
Defined.

(** C9. getVideoInfoNative is a constant function of its file-path
    argument: in any two runs, whatever the worlds, receivers and paths,
    the returned string has the same characters, ["Duration: 0"]; and
    from one heap, the reference handed back is the same whatever the
    path and whatever the disk holds. *)
Theorem getVideoInfoNative_constant
    (w1 w2 : World) (this1 this2 : jobject) (path1 path2 : jstring) :
  returned_chars
    (Java_uc_ucworks_videosnap_MltHelper_getVideoInfoNative this1 path1) w1
  = Some "Duration: 0"
  /\ returned_chars
       (Java_uc_ucworks_videosnap_MltHelper_getVideoInfoNative this1 path1)
       w1
     = returned_chars
         (Java_uc_ucworks_videosnap_MltHelper_getVideoInfoNative this2 path2)
         w2
  /\ forall disk1 disk2,
       JNI.eval
         (Java_uc_ucworks_videosnap_MltHelper_getVideoInfoNative this1 path1)
         (set_files disk1 w1)
       = JNI.eval
           (Java_uc_ucworks_videosnap_MltHelper_getVideoInfoNative
              this2 path2)
           (set_files disk2 w1).
Proof.
  unfold Java_uc_ucworks_videosnap_MltHelper_getVideoInfoNative.
  rewrite !NewStringUTF_chars. repeat split.
Qed.

(** C10. Each of the nine [void] entry points leaves the whole world as
    it found it, for every input: heap, pending exception, the files on
    disk (so nothing is created or modified at any output path) and the
    engine log. *)
Theorem void_natives_leave_world_unchanged :
  (forall this inPath outPath start end_,
      leaves_world_unchanged
        (Java_uc_ucworks_videosnap_MltHelper_trimVideoNative
           this inPath outPath start end_))
  /\ (forall this inPath outPath1 outPath2 splitPoint,
      leaves_world_unchanged
        (Java_uc_ucworks_videosnap_MltHelper_splitVideoNative
           this inPath outPath1 outPath2 splitPoint))
  /\ (forall this inPath outPath effect,
      leaves_world_unchanged
        (Java_uc_ucworks_videosnap_MltHelper_applyEffectNative
           this inPath outPath effect))
  /\ (forall this inPath outPath preset,
      leaves_world_unchanged
        (Java_uc_ucworks_videosnap_MltHelper_exportVideoNative
           this inPath outPath preset))
  /\ (forall this inPaths outPath,
      leaves_world_unchanged
        (Java_uc_ucworks_videosnap_MltHelper_mixAudioNative
           this inPaths outPath))
  /\ (forall this inPath outPath property keyframes,
      leaves_world_unchanged
        (Java_uc_ucworks_videosnap_MltHelper_applyKeyframeEffectNative
           this inPath outPath property keyframes))
  /\ (forall this inPath outPath text x y fontSize color,
      leaves_world_unchanged
        (Java_uc_ucworks_videosnap_MltHelper_applyTextOverlayNative
           this inPath outPath text x y fontSize color))
  /\ (forall this backgroundPath foregroundPath outPath x y width height,
      leaves_world_unchanged
        (Java_uc_ucworks_videosnap_MltHelper_applyPiPNative
           this backgroundPath foregroundPath outPath x y width height))
  /\ (forall this inPath outPath speedMap,
      leaves_world_unchanged
        (Java_uc_ucworks_videosnap_MltHelper_applySpeedRampNative
           this inPath outPath speedMap)).
Proof. repeat split; intros; apply ret_unchanged. Qed.

(** ** The heap across calls *)

Lemma world_eq (w1 w2 : World) :
  heap w1 = heap w2 -> thrown w1 = thrown w2 -> files w1 = files w2 ->
  engine w1 = engine w2 -> w1 = w2.
Proof. destruct w1, w2; cbn; intros; now subst. Qed.

(** One call appends the string it allocates, if it allocates one. *)
Lemma invoke_heap (this : jobject) (c : NativeCall) (w : World) :
  heap (JNI.exec (invoke this c) w)
  = heap w ++ match placeholder c with
              | Some s => [JString s]
              | None => []
              end.
Proof. destruct c; cbn; now rewrite ?app_nil_r. Qed.



Lemma session_exec_cons this c cs w :
  JNI.exec (session this (c :: cs)) w
  = JNI.exec (session this cs) (JNI.exec (invoke this c) w).
Proof.
  unfold JNI.exec; cbn [session]; unfold JNI.bind.
  destruct (invoke this c w) as [r w1]; cbn.
  now destruct (session this cs w1).
Qed.

Lemma session_eval_cons this c cs w :
  JNI.eval (session this (c :: cs)) w
  = JNI.eval (invoke this c) w
    :: JNI.eval (session this cs) (JNI.exec (invoke this c) w).
Proof.
  unfold JNI.eval, JNI.exec; cbn [session]; unfold JNI.bind.
  destruct (invoke this c w) as [r w1]; cbn.
  now destruct (session this cs w1).
Qed.

Lemma session_heap this cs : forall w,
  heap (JNI.exec (session this cs) w)
  = heap w ++ (JString <$> omap placeholder cs).
Proof.
  induction cs as [|c cs IH]; intros w.
  - cbn. now rewrite app_nil_r.
  - rewrite session_exec_cons, IH, invoke_heap. cbn [omap list_omap].
    destruct (placeholder c); cbn; now rewrite <- ?app_assoc, ?app_nil_r.
Qed.

Lemma session_frame this cs : forall w,
  thrown (JNI.exec (session this cs) w) = thrown w
  /\ files (JNI.exec (session this cs) w) = files w
  /\ engine (JNI.exec (session this cs) w) = engine w.
Proof.
  induction cs as [|c cs IH]; intros w; [now cbn |].
  rewrite session_exec_cons.
  destruct (IH (JNI.exec (invoke this c) w)) as (-> & -> & ->).
  apply invoke_frame.
Qed.





(** X2. After any sequence of calls the pending exception, the disk and
    the engine log are what they were, and the heap is the old heap
    followed by one string per getVideoInfo or trackMotion call, in call
    order: ["Duration: 0"] for the former, [""] for the latter.  Nothing
    the caller held is overwritten or freed. *)
Theorem session_world (this : jobject) (cs : list NativeCall) (w : World) :
  let w' := JNI.exec (session this cs) w in
  thrown w' = thrown w
  /\ files w' = files w
  /\ engine w' = engine w
  /\ heap w' = heap w ++ (JString <$> omap placeholder cs).
Proof.
  cbn zeta. destruct (session_frame this cs w) as (Ht & Hf & He).
  repeat split; auto using session_heap.
Qed.



(** X5. The [void] calls of a sequence can be dropped without any
    difference to the caller: the final world and the references handed
    back are those of the sequence with only its getVideoInfo and
    trackMotion calls. *)
Theorem session_void_calls_irrelevant
    (this : jobject) (cs : list NativeCall) (w : World) :
  let cs' := List.filter (fun c => negb (is_void c)) cs in
  JNI.exec (session this cs) w = JNI.exec (session this cs') w
  /\ handed_back (JNI.eval (session this cs) w)
     = handed_back (JNI.eval (session this cs') w).
Proof.
  cbn zeta. revert w. induction cs as [|c cs IH]; intros w; [now cbn |].
  cbn [List.filter]. unfold handed_back in *.
  destruct (is_void c) eqn:E; cbn [negb].
  - rewrite session_exec_cons, session_eval_cons.
    pose proof (invoke_void this c w E) as Hrun.
    assert (Hx : JNI.exec (invoke this c) w = w)
      by (unfold JNI.exec; unfold JNI.run in Hrun; now rewrite Hrun).
    assert (Hv : JNI.eval (invoke this c) w = None)
      by (unfold JNI.eval; unfold JNI.run in Hrun; now rewrite Hrun).
    rewrite Hx, Hv. cbn [omap list_omap]. cbn. apply IH.
  - rewrite !session_exec_cons, !session_eval_cons.
    cbn [omap list_omap].
    destruct (IH (JNI.exec (invoke this c) w)) as [-> ->]. auto.
Qed.

(** X6. What a call does depends only on which entry point it names:
    two calls that pass the same literal to [NewStringUTF], or both none,
    hand back the same reference and leave the same world from any given
    world, whatever their receivers and arguments. *)
Theorem invoke_depends_on_entry_point_only
    (this1 this2 : jobject) (c1 c2 : NativeCall) (w : World) :
  placeholder c1 = placeholder c2 ->
  JNI.run (invoke this1 c1) w = JNI.run (invoke this2 c2) w.
Proof.
  destruct c1, c2; cbn; intros H; try discriminate H; reflexivity.
Qed.

Lemma invoke_depends_on_entry_point_only_witness :
  placeholder (TrackMotion Studio.in_mp4 Studio.out_mp4 0 0 64 64)
  = placeholder (TrackMotion Studio.b_mp4 Studio.out2_mp4 10 20 320 240)
  /\ JNI.run (invoke Studio.this
                (TrackMotion Studio.in_mp4 Studio.out_mp4 0 0 64 64))
             Studio.world
     = JNI.run (invoke Studio.in_mp4
                  (TrackMotion Studio.b_mp4 Studio.out2_mp4 10 20 320 240))
               Studio.world.
Proof.
  split; [reflexivity |].
  apply (invoke_depends_on_entry_point_only Studio.this Studio.in_mp4
           (TrackMotion Studio.in_mp4 Studio.out_mp4 0 0 64 64)
           (TrackMotion Studio.b_mp4 Studio.out2_mp4 10 20 320 240)
           Studio.world).
  reflexivity.
Defined.
